(** * PDF processing service: extraction and analysis

    A shallow embedding of [services/pdf-processor/main.py]: the function
    [extract_text_from_pdf], the endpoint [extract_text] and the endpoint
    [analyze_document], with the Python string built-ins they rely on
    ([str.strip], [str.split], [str.lower], [str.endswith]).

    What PyPDF2 answers (the reader, its metadata, the pages and the text
    of each page, or the exception raised instead) is input data of the
    model: the service only post-processes those answers. *)

From Stdlib Require Import ZArith QArith DecimalString.
From stdpp Require Import base gmap list strings.

Local Open Scope Z_scope.

(** ** Python strings *)

Module Py.

(** A Python [str] is a sequence of Unicode code points. *)
Definition str := list N.

(** A literal written in the source, code point by code point. *)
Definition lit (s : string) : str :=
  List.map Ascii.N_of_ascii (String.list_ascii_of_string s).

(** [ch.isspace()], the test used by [strip()] and by [split()] without
    separator: the code points of bidirectional type WS, B or S, or of
    category Zs. *)
Definition isspace (c : N) : bool :=
  ((9 <=? c) && (c <=? 13) || (28 <=? c) && (c <=? 32)
   || (c =? 133) || (c =? 160) || (c =? 5760)
   || (8192 <=? c) && (c <=? 8202)
   || (c =? 8232) || (c =? 8233) || (c =? 8239) || (c =? 8287)
   || (c =? 12288))%N.

(** A string made of white space only. *)
Definition blank (ws : str) : Prop := forallb isspace ws = true.

Fixpoint drop_while (p : N -> bool) (s : str) : str :=
  match s with
  | [] => []
  | c :: s' => if p c then drop_while p s' else s
  end.

Fixpoint take_while (p : N -> bool) (s : str) : str :=
  match s with
  | [] => []
  | c :: s' => if p c then c :: take_while p s' else []
  end.

(** [s.lstrip()]: the index moves right over white space. *)
Definition lstrip (s : str) : str := drop_while isspace s.

(** [s.rstrip()]: the index moves left over white space. *)
Definition rstrip (s : str) : str := rev (drop_while isspace (rev s)).

(** [s.strip()]: the left index is found first, then the right one. *)
Definition strip (s : str) : str := rstrip (lstrip s).

(** The token being read by [split()], most recent code point first,
    is closed when white space or the end of the string is met. *)
Definition flush (tok : str) : list str :=
  match tok with
  | [] => []
  | _ :: _ => [rev tok]
  end.

Fixpoint split_go (tok : str) (s : str) : list str :=
  match s with
  | [] => flush tok
  | c :: s' =>
      if isspace c then flush tok ++ split_go [] s'
      else split_go (c :: tok) s'
  end.

(** [s.split()]: the maximal runs of code points that are not white
    space; no empty string is ever returned. *)
Definition split (s : str) : list str := split_go [] s.

Fixpoint startswith (s pre : str) : bool :=
  match pre, s with
  | [], _ => true
  | _ :: _, [] => false
  | p :: pre', c :: s' => (c =? p)%N && startswith s' pre'
  end.

(** [split_sep_go sep skip cur s]: [skip] code points of a separator
    just matched are still to be passed over, [cur] is the piece being
    read, most recent code point first. *)
Fixpoint split_sep_go (sep : str) (skip : nat) (cur : str) (s : str)
  : list str :=
  match s with
  | [] => [rev cur]
  | c :: s' =>
      match skip with
      | S k => split_sep_go sep k cur s'
      | O =>
          if startswith s sep
          then rev cur :: split_sep_go sep (length sep - 1) [] s'
          else split_sep_go sep 0 (c :: cur) s'
      end
  end.

(** [s.split(sep)] for a non-empty [sep] (an empty one raises
    ValueError; the service passes two literals): the pieces between the
    occurrences of [sep], found left to right without overlap; empty
    pieces are kept. *)
Definition split_sep (s sep : str) : list str := split_sep_go sep 0 [] s.

(** [sep.join(l)] *)
Fixpoint join (sep : str) (l : list str) : str :=
  match l with
  | [] => []
  | [x] => x
  | x :: l' => x ++ sep ++ join sep l'
  end.

(** Truth value of a string: non-empty. *)
Definition truthy (s : str) : bool :=
  match s with [] => false | _ :: _ => true end.

(** [len(s)] *)
Definition len {A} (l : list A) : Z := Z.of_nat (length l).

(** [s.lower()] on the ASCII letters. The service applies it only to
    test the suffix ".pdf", and no code point outside ASCII lowers to
    '.', 'p', 'd' or 'f'. *)
Definition lower_char (c : N) : N :=
  if ((65 <=? c) && (c <=? 90))%N then (c + 32)%N else c.

Definition lower (s : str) : str := List.map lower_char s.

(** [s.endswith(suf)] *)
Definition endswith (s suf : str) : bool := startswith (rev s) (rev suf).

End Py.

Import Py.

(** ** Data model *)

Definition bytes := list Byte.byte.

(** Exceptions: the [HTTPException] the service raises itself, and any
    other exception [e], kept as its rendering [str(e)]. *)
Inductive exn :=
| HTTPException (status_code : Z) (detail : str)
| Raised (msg : str).

(** A page of the reader: what [page.extract_text()] does on it. *)
Inductive PageObject :=
| TextPage (page_text : str)
| BrokenPage (e : exn).

Definition page_extract_text (page : PageObject) : exn + str :=
  match page with
  | TextPage page_text => inr page_text
  | BrokenPage e => inl e
  end.

(** [pdf_reader.metadata] is [None] or a dictionary object (a [dict]
    subclass, hence false when it has no entry) whose properties are
    optional. *)
Record DocumentInformation (datetime : Type) := {
  raw_entries : nat;
  title : option str;
  author : option str;
  subject : option str;
  creator : option str;
  producer : option str;
  creation_date : option datetime;
  modification_date : option datetime
}.
Arguments raw_entries {datetime}.
Arguments title {datetime}.
Arguments author {datetime}.
Arguments subject {datetime}.
Arguments creator {datetime}.
Arguments producer {datetime}.
Arguments creation_date {datetime}.
Arguments modification_date {datetime}.

Record PdfReader (datetime : Type) := {
  reader_metadata : option (DocumentInformation datetime);
  pages : list PageObject
}.
Arguments reader_metadata {datetime}.
Arguments pages {datetime}.

(** The dictionary appended to [sections] for one page; ['error'] is a
    key of the failed pages only. *)
Module Sec.
Record t := {
  type : str;
  page_number : Z;
  content : str;
  word_count : Z;
  char_count : Z;
  error : option str
}.
End Sec.

(** The dictionary returned by [extract_text_from_pdf]. *)
Module Doc.
Record t := {
  text_content : str;
  page_count : Z;
  word_count : Z;
  metadata : gmap string str;
  sections : list Sec.t
}.
End Doc.

(** The response of [/extract-text]. *)
Module Resp.
Record t := {
  document_id : str;
  filename : str;
  text_content : str;
  page_count : Z;
  word_count : Z;
  metadata : gmap string str;
  sections : list Sec.t
}.
End Resp.

(** A Python number: the conditional of [avg_words_per_page] yields the
    result of a true division or the integer 0. A float is kept as the
    exact quotient that the division rounds. *)
Inductive number :=
| Int (n : Z)
| Float (q : Q).

Module Stats.
Record t := {
  page_count : Z;
  word_count : Z;
  sentence_count : Z;
  paragraph_count : Z;
  avg_words_per_page : number
}.
End Stats.

(** The response of [/analyze-document]. *)
Module Analysis.
Record t := {
  document_id : str;
  filename : str;
  basic_stats : Stats.t;
  text_content : str;
  metadata : gmap string str;
  sections : list Sec.t;
  analysis_timestamp : Z
}.
End Analysis.

Record UploadFile := {
  filename : str;
  file_read : bytes
}.

(** ** The service *)

Definition nl2 : str := [10; 10]%N.

Definition placeholder : str := lit "[Error extracting text from this page]".

(** [x or ''] *)
Definition or_empty (x : option str) : str :=
  match x with
  | Some s => if truthy s then s else lit ""
  | None => lit ""
  end.

(** [str(n)] for an integer. *)
Definition str_of_int (n : Z) : str :=
  lit (NilZero.string_of_int (Z.to_int n)).

(** Taken from the libraries: the type of dates and their rendering,
    the rendering of an [HTTPException], and the reader, which either
    raises or gives the document. Whatever is raised while the file is
    opened and the reader, its metadata and its page list are read is
    the reader's exception. *)
Class Libraries := {
  datetime : Type;
  datetime_str : datetime -> str;
  http_exception_str : Z -> str -> str;
  open_reader : bytes -> exn + PdfReader datetime
}.

Section Service.

Context {L : Libraries}.

Definition exn_str (e : exn) : str :=
  match e with
  | HTTPException status_code detail => http_exception_str status_code detail
  | Raised msg => msg
  end.

(** [str(d) if d else '']: a date object is always true. *)
Definition date_or_empty (d : option datetime) : str :=
  match d with
  | Some d => datetime_str d
  | None => lit ""
  end.

Definition info_truthy (m : option (DocumentInformation datetime)) : bool :=
  match m with
  | Some info => negb (Nat.eqb (raw_entries info) 0)
  | None => false
  end.

Definition extract_metadata (m : option (DocumentInformation datetime))
  : gmap string str :=
  match m with
  | Some info =>
      if info_truthy m then
        <["title" := or_empty (title info)]>
        (<["author" := or_empty (author info)]>
        (<["subject" := or_empty (subject info)]>
        (<["creator" := or_empty (creator info)]>
        (<["producer" := or_empty (producer info)]>
        (<["creation_date" := date_or_empty (creation_date info)]>
        (<["modification_date" := date_or_empty (modification_date info)]>
         ∅))))))
      else ∅
  | None => ∅
  end.

Definition page_section (page_num : Z) (page_text : str) : Sec.t :=
  {| Sec.type := lit "page";
     Sec.page_number := page_num + 1;
     Sec.content := strip page_text;
     Sec.word_count := len (split page_text);
     Sec.char_count := len page_text;
     Sec.error := None |}.

Definition error_section (page_num : Z) (e : exn) : Sec.t :=
  {| Sec.type := lit "page";
     Sec.page_number := page_num + 1;
     Sec.content := placeholder;
     Sec.word_count := 0;
     Sec.char_count := 0;
     Sec.error := Some (exn_str e) |}.

(** The loop over [enumerate(pdf_reader.pages)], with its two
    variables [full_text] and [sections]. *)
Fixpoint pages_loop (page_num : Z) (ps : list PageObject)
    (full_text : str) (sections : list Sec.t) : str * list Sec.t :=
  match ps with
  | [] => (full_text, sections)
  | page :: rest =>
      match page_extract_text page with
      | inr page_text =>
          pages_loop (page_num + 1) rest
            (full_text ++ (page_text ++ nl2))
            (sections ++ [page_section page_num page_text])
      | inl e =>
          pages_loop (page_num + 1) rest
            full_text
            (sections ++ [error_section page_num e])
      end
  end.

(** The accumulator [full_text] when the loop ends. *)
Definition full_text_of (pdf_reader : PdfReader datetime) : str :=
  fst (pages_loop 0 (pages pdf_reader) [] []).

Definition assemble (pdf_reader : PdfReader datetime) : Doc.t :=
  let metadata := extract_metadata (reader_metadata pdf_reader) in
  let '(full_text, sections) := pages_loop 0 (pages pdf_reader) [] [] in
  {| Doc.text_content := strip full_text;
     Doc.page_count := len (pages pdf_reader);
     Doc.word_count := len (split full_text);
     Doc.metadata := metadata;
     Doc.sections := sections |}.

Definition extract_text_from_pdf (file : bytes) : exn + Doc.t :=
  match open_reader file with
  | inr pdf_reader => inr (assemble pdf_reader)
  | inl e =>
      inl (HTTPException 400
             (lit "Failed to extract text from PDF: " ++ exn_str e))
  end.

(** [/extract-text]; [now] is [int(time.time())]. The temporary file
    is written and removed without fault. *)
Definition extract_text (now : Z) (file : UploadFile)
    (document_id : option str) : exn + Resp.t :=
  if negb (endswith (lower (filename file)) (lit ".pdf")) then
    inl (HTTPException 400 (lit "Only PDF files are supported"))
  else
    let document_id :=
      if truthy (default [] document_id) then default [] document_id
      else lit "doc_" ++ str_of_int now in
    match extract_text_from_pdf (file_read file) with
    | inr extraction_result =>
        inr {| Resp.document_id := document_id;
               Resp.filename := filename file;
               Resp.text_content := Doc.text_content extraction_result;
               Resp.page_count := Doc.page_count extraction_result;
               Resp.word_count := Doc.word_count extraction_result;
               Resp.metadata := Doc.metadata extraction_result;
               Resp.sections := Doc.sections extraction_result |}
    | inl e =>
        inl (HTTPException 500 (lit "Processing failed: " ++ exn_str e))
    end.

(** The statistics computed by [analyze_document] from the response
    of [extract_text]. *)
Definition sentences (text : str) : list str :=
  List.map strip (List.filter (fun s => truthy (strip s)) (split_sep text (lit "."))).

Definition paragraphs (text : str) : list str :=
  List.map strip (List.filter (fun p => truthy (strip p)) (split_sep text nl2)).

Definition avg_words (word_count page_count : Z) : number :=
  if page_count >? 0
  then Float (Qdiv (inject_Z word_count) (inject_Z page_count))
  else Int 0.

Definition analyze (now_ms : Z) (extraction_response : Resp.t) : Analysis.t :=
  let text := Resp.text_content extraction_response in
  {| Analysis.document_id := Resp.document_id extraction_response;
     Analysis.filename := Resp.filename extraction_response;
     Analysis.basic_stats :=
       {| Stats.page_count := Resp.page_count extraction_response;
          Stats.word_count := Resp.word_count extraction_response;
          Stats.sentence_count := len (sentences text);
          Stats.paragraph_count := len (paragraphs text);
          Stats.avg_words_per_page :=
            avg_words (Resp.word_count extraction_response)
                      (Resp.page_count extraction_response) |};
     Analysis.text_content := text;
     Analysis.metadata := Resp.metadata extraction_response;
     Analysis.sections := Resp.sections extraction_response;
     Analysis.analysis_timestamp := now_ms |}.

(** [/analyze-document]; [now_ms] is [int(time.time() * 1000)]. *)
Definition analyze_document (now now_ms : Z) (file : UploadFile)
    (document_id : option str) : exn + Analysis.t :=
  match extract_text now file document_id with
  | inr extraction_response => inr (analyze now_ms extraction_response)
  | inl e => inl e
  end.

(** *** What one page contributes

    The loop read page by page: what a page adds to [full_text], the
    dictionary it adds to [sections], and [sum()] over integers. *)

Definition page_contribution (page : PageObject) : str :=
  match page_extract_text page with
  | inr page_text => page_text ++ nl2
  | inl _ => []
  end.

Definition page_record (page_num : Z) (page : PageObject) : Sec.t :=
  match page_extract_text page with
  | inr page_text => page_section page_num page_text
  | inl e => error_section page_num e
  end.

Fixpoint records_from (page_num : Z) (ps : list PageObject) : list Sec.t :=
  match ps with
  | [] => []
  | page :: rest => page_record page_num page :: records_from (page_num + 1) rest
  end.

Fixpoint contributions (ps : list PageObject) : str :=
  match ps with
  | [] => []
  | page :: rest => page_contribution page ++ contributions rest
  end.

End Service.

Definition sum (l : list Z) : Z := foldr Z.add 0 l.

(** The document with page [k] (counted from 0) replaced, and with it
    taken out. *)
Definition with_page {datetime} (pdf : PdfReader datetime) (k : nat)
    (page : PageObject) : PdfReader datetime :=
  {| reader_metadata := reader_metadata pdf;
     pages := <[k := page]> (pages pdf) |}.

Definition without_page {datetime} (pdf : PdfReader datetime) (k : nat)
  : PdfReader datetime :=
  {| reader_metadata := reader_metadata pdf;
     pages := delete k (pages pdf) |}.

(** ** Sample inputs *)

(** Libraries whose reader answers [r] on every file; a date is kept as
    its rendering. *)
Definition sample_libraries (r : exn + PdfReader str) : Libraries :=
  {| datetime := str;
     datetime_str := fun d => d;
     http_exception_str :=
       fun status_code detail => str_of_int status_code ++ lit ": " ++ detail;
     open_reader := fun _ => r |}.

Definition sample_pdf (ps : list PageObject) : PdfReader str :=
  {| reader_metadata := None; pages := ps |}.

Definition sample_upload : UploadFile :=
  {| filename := lit "report.pdf"; file_read := [] |}.

(** Three pages, the second of which cannot be read; the first begins
    with a space. *)
Definition sample_reader : PdfReader str :=
  sample_pdf [TextPage (lit " Hello world.");
              BrokenPage (Raised (lit "bad stream"));
              TextPage (lit "Foo bar baz.")].

Definition sample_env : Libraries := sample_libraries (inr sample_reader).

Definition sample_document : Doc.t := assemble (L := sample_env) sample_reader.

(** The three pages of the scenario of the specification. *)
Definition scenario_texts : list str :=
  [lit "Hello world."; lit "Foo bar baz."; lit ""].

Definition scenario_reader : PdfReader str :=
  sample_pdf (TextPage <$> scenario_texts).

Definition scenario_env : Libraries := sample_libraries (inr scenario_reader).

(** A document with a title and a creation date only. *)
Definition titled_reader : PdfReader str :=
  {| reader_metadata :=
       Some {| raw_entries := 2;
               title := Some (lit "Annual report");
               author := None;
               subject := None;
               creator := None;
               producer := None;
               creation_date := Some (lit "2024-01-31 09:30:00");
               modification_date := None |};
     pages := [] |}.

Definition titled_env : Libraries := sample_libraries (inr titled_reader).

(** A reader that rejects every file. *)
Definition rejecting_env : Libraries :=
  sample_libraries (inl (Raised (lit "EOF marker not found"))).

(** A response with three pages and five words. *)
Definition sample_response : Resp.t :=
  {| Resp.document_id := lit "doc_17";
     Resp.filename := lit "report.pdf";
     Resp.text_content := lit "Hello world.";
     Resp.page_count := 3;
     Resp.word_count := 5;
     Resp.metadata := ∅;
     Resp.sections := [] |}.

(** The texts of the pages that could be read, in page order. *)
Fixpoint extracted_texts (ps : list PageObject) : list str :=
  match ps with
  | [] => []
  | page :: rest =>
      match page_extract_text page with
      | inr page_text => page_text :: extracted_texts rest
      | inl _ => extracted_texts rest
      end
  end.

(** A page that adds no word: it cannot be read, or its text is white
    space only. *)
Definition wordless (page : PageObject) : Prop :=
  match page_extract_text page with
  | inr page_text => blank page_text
  | inl _ => True
  end.

(** Uploads named otherwise. *)
Definition text_upload : UploadFile :=
  {| filename := lit "report.txt"; file_read := [] |}.

Definition shouting_upload : UploadFile :=
  {| filename := lit "REPORT.PDF"; file_read := [] |}.

(** A document whose pages add no word. *)
Definition wordless_reader : PdfReader str :=
  sample_pdf [TextPage (lit "  "); BrokenPage (Raised (lit "bad stream"))].

Definition wordless_env : Libraries := sample_libraries (inr wordless_reader).

(** The responses of [/extract-text] for the sample and for the
    wordless document, asked at time 17 without identifier. *)
Definition response_of (d : Doc.t) : Resp.t :=
  {| Resp.document_id := lit "doc_17";
     Resp.filename := lit "report.pdf";
     Resp.text_content := Doc.text_content d;
     Resp.page_count := Doc.page_count d;
     Resp.word_count := Doc.word_count d;
     Resp.metadata := Doc.metadata d;
     Resp.sections := Doc.sections d |}.

Definition sample_extraction : Resp.t := response_of sample_document.

Definition wordless_extraction : Resp.t :=
  response_of (assemble (L := wordless_env) wordless_reader).

(** ** Cutting a text at a separator, said without the scan *)

(** [sep] occurs in [text] at index [i]. *)
Definition occurs_at (sep text : str) (i : nat) : Prop :=
  sep `prefix_of` drop i text.

(** [pieces] are the parts of [text] between the occurrences of [sep]
    taken from left to right without overlap: either [sep] occurs
    nowhere and the text is the only piece, or the first piece ends
    where [sep] first occurs and what follows that occurrence is cut in
    the same way. *)
Inductive cut_at (sep : str) : str -> list str -> Prop :=
| cut_at_end text :
    (forall i, ~ occurs_at sep text i) ->
    cut_at sep text [text]
| cut_at_sep piece rest pieces :
    (forall i, (i < length piece)%nat ->
       ~ occurs_at sep (piece ++ sep ++ rest) i) ->
    cut_at sep rest pieces ->
    cut_at sep (piece ++ sep ++ rest) (piece :: pieces).

(** A piece that trimming does not empty: one of its code points is not
    white space. *)
Definition has_text (piece : str) : bool :=
  existsb (fun c => negb (isspace c)) piece.

(** The response of [/extract-text] for the scenario. *)
Definition scenario_extraction : Resp.t :=
  response_of (assemble (L := scenario_env) scenario_reader).

(** ** The string built-ins on examples *)

Example strip_ex : strip (lit "  a b  ") = lit "a b".
Proof. reflexivity. Qed.

Example split_ex :
  split (lit " Hello   world. ") = [lit "Hello"; lit "world."].
Proof. reflexivity. Qed.

Example split_sep_ex1 :
  split_sep (lit "a.b..c") (lit ".") = [lit "a"; lit "b"; lit ""; lit "c"].
Proof. reflexivity. Qed.

Example split_sep_ex2 :
  split_sep [97; 10; 10; 10; 98]%N nl2 = [[97]; [10; 98]]%N.
Proof. reflexivity. Qed.

Example split_sep_ex3 : split_sep (lit "") (lit ".") = [lit ""].
Proof. reflexivity. Qed.

Example endswith_ex : endswith (lower (lit "Report.PDF")) (lit ".pdf") = true.
Proof. reflexivity. Qed.

(** ** Facts about [split()] and [strip()] *)

Lemma split_go_blank_char tok s c :
  isspace c = true -> split_go tok (s ++ [c]) = split_go tok s.
Proof.
  intros Hc. revert tok.
  induction s as [|x s IH]; intros tok; simpl.
  - rewrite Hc. apply app_nil_r.
  - destruct (isspace x); by rewrite IH.
Qed.

Lemma split_go_blank_tail tok s ws :
  blank ws -> split_go tok (s ++ ws) = split_go tok s.
Proof.
  unfold blank. revert s.
  induction ws as [|c ws IH]; intros s Hws; simpl in *.
  - by rewrite app_nil_r.
  - apply andb_prop in Hws as [Hc Hws].
    change (c :: ws) with ([c] ++ ws). rewrite app_assoc.
    rewrite IH by done. by apply split_go_blank_char.
Qed.

(** White space between two strings keeps their tokens apart. *)
Lemma split_go_app_blank tok a c b :
  isspace c = true ->
  split_go tok (a ++ c :: b) = split_go tok a ++ split_go [] b.
Proof.
  intros Hc. revert tok.
  induction a as [|x a IH]; intros tok; simpl.
  - by rewrite Hc.
  - destruct (isspace x); rewrite IH; by rewrite ?app_assoc.
Qed.

Lemma split_blank_head c s : isspace c = true -> split (c :: s) = split s.
Proof. intros Hc. unfold split. simpl. by rewrite Hc. Qed.

Lemma split_lstrip s : split (lstrip s) = split s.
Proof.
  unfold lstrip. induction s as [|c s IH]; simpl; [done|].
  destruct (isspace c) eqn:Hc; [|done].
  by rewrite split_blank_head.
Qed.

Lemma take_drop_while p s : take_while p s ++ drop_while p s = s.
Proof.
  induction s as [|c s IH]; simpl; [done|].
  destruct (p c); simpl; by rewrite ?IH.
Qed.

Lemma take_while_forallb p s : forallb p (take_while p s) = true.
Proof.
  induction s as [|c s IH]; simpl; [done|].
  destruct (p c) eqn:Hc; simpl; [|done]. by rewrite Hc.
Qed.

Lemma forallb_rev p (s : str) : forallb p (rev s) = forallb p s.
Proof.
  induction s as [|c s IH]; simpl; [done|].
  rewrite forallb_app, IH. simpl. rewrite andb_true_r. apply andb_comm.
Qed.

(** What [rstrip()] removes is white space. *)
Lemma rstrip_split s : exists ws, blank ws /\ s = rstrip s ++ ws.
Proof.
  exists (rev (take_while isspace (rev s))). split.
  - unfold blank. rewrite forallb_rev. apply take_while_forallb.
  - unfold rstrip. rewrite <- rev_app_distr, take_drop_while.
    by rewrite rev_involutive.
Qed.

Lemma split_rstrip s : split (rstrip s) = split s.
Proof.
  destruct (rstrip_split s) as (ws & Hws & Hs).
  rewrite Hs at 2. unfold split. by rewrite split_go_blank_tail.
Qed.

Lemma split_strip s : split (strip s) = split s.
Proof. unfold strip. by rewrite split_rstrip, split_lstrip. Qed.

Lemma drop_while_blank ws : blank ws -> drop_while isspace ws = [].
Proof.
  unfold blank. induction ws as [|c ws IH]; simpl; [done|].
  intros [Hc Hws]%andb_prop. rewrite Hc. auto.
Qed.

Lemma drop_while_app s t :
  drop_while isspace (s ++ t) =
  match drop_while isspace s with
  | [] => drop_while isspace t
  | r => r ++ t
  end.
Proof.
  induction s as [|c s IH]; simpl.
  - by destruct (drop_while isspace t).
  - by destruct (isspace c).
Qed.

Lemma rstrip_blank_tail s ws : blank ws -> rstrip (s ++ ws) = rstrip s.
Proof.
  intros Hws. unfold rstrip. rewrite rev_app_distr, drop_while_app.
  rewrite drop_while_blank; [done|].
  unfold blank. by rewrite forallb_rev.
Qed.

Lemma rstrip_blank ws : blank ws -> rstrip ws = [].
Proof. intros Hws. by rewrite <- (app_nil_l ws), rstrip_blank_tail. Qed.

(** Trailing white space does not change what [strip()] returns. *)
Lemma strip_blank_tail s ws : blank ws -> strip (s ++ ws) = strip s.
Proof.
  intros Hws. unfold strip, lstrip. rewrite drop_while_app.
  destruct (drop_while isspace s) as [|x r] eqn:Hs.
  - rewrite drop_while_blank by done. reflexivity.
  - by rewrite rstrip_blank_tail.
Qed.

Lemma blank_nl2 : blank nl2.
Proof. reflexivity. Qed.

(** ** Facts about [split(sep)] *)

Lemma startswith_app s pre :
  startswith s pre = true -> exists t, s = pre ++ t.
Proof.
  revert s. induction pre as [|p pre IH]; intros s; simpl.
  - by exists s.
  - destruct s as [|c s]; [done|].
    intros [Hc Hs]%andb_prop. apply N.eqb_eq in Hc as ->.
    destruct (IH _ Hs) as [t ->]. by exists t.
Qed.

(** Passing over the rest of a separator. *)
Lemma split_sep_go_skip sep s : forall k cur,
  (k <= length s)%nat ->
  split_sep_go sep k cur s = split_sep_go sep 0 cur (drop k s).
Proof.
  induction s as [|c s IH]; intros [|k] cur Hk; simpl in *; try done; try lia.
  apply IH. lia.
Qed.

Lemma split_sep_go_cons sep k cur s :
  exists piece pieces, split_sep_go sep k cur s = piece :: pieces.
Proof.
  revert k cur.
  induction s as [|c s IH]; intros k cur; cbn [split_sep_go]; [by eauto|].
  destruct k as [|k]; [|apply IH].
  destruct (startswith (c :: s) sep); [|apply IH].
  eexists _, _. reflexivity.
Qed.

Lemma join_cons_cons sep x y l :
  join sep (x :: y :: l) = x ++ sep ++ join sep (y :: l).
Proof. reflexivity. Qed.

Lemma join_split_sep_go sep :
  sep <> [] ->
  forall n s cur, (length s <= n)%nat ->
    join sep (split_sep_go sep 0 cur s) = rev cur ++ s.
Proof.
  intros Hsep. induction n as [|n IH]; intros s cur Hn.
  - destruct s; [|simpl in Hn; lia]. simpl. by rewrite app_nil_r.
  - destruct s as [|c s]; [simpl; by rewrite app_nil_r|].
    simpl in Hn. cbn [split_sep_go].
    destruct (startswith (c :: s) sep) eqn:Hpre.
    + destruct (startswith_app _ _ Hpre) as [t Ht].
      destruct sep as [|p sep]; [done|].
      injection Ht as -> ->.
      rewrite split_sep_go_skip by (rewrite length_app; simpl; lia).
      replace (length (p :: sep) - 1)%nat with (length sep) by (simpl; lia).
      rewrite drop_app_length.
      destruct (split_sep_go_cons (p :: sep) 0 [] t) as (y & l & Hy).
      rewrite Hy, join_cons_cons, <- Hy.
      rewrite IH by (rewrite length_app in Hn; lia).
      simpl. by rewrite <- ?app_assoc.
    + rewrite IH by lia. simpl. by rewrite <- app_assoc.
Qed.

(** Joining the pieces with the separator gives the string back. *)
Lemma join_split_sep s sep : sep <> [] -> join sep (split_sep s sep) = s.
Proof.
  intros Hsep. unfold split_sep.
  by rewrite (join_split_sep_go sep Hsep (length s)).
Qed.

(** ** The extraction loop *)

Section Extraction.

Context {L : Libraries}.

(** The loop appends to its two variables what each page contributes,
    in page order. *)
Lemma pages_loop_spec ps : forall page_num full_text sections,
  pages_loop page_num ps full_text sections =
  (full_text ++ contributions ps, sections ++ records_from page_num ps).
Proof.
  induction ps as [|page rest IH]; intros page_num full_text sections; simpl.
  - by rewrite !app_nil_r.
  - unfold page_contribution, page_record.
    destruct (page_extract_text page) as [e|page_text];
      rewrite IH, <- !app_assoc; reflexivity.
Qed.

Lemma records_from_length ps : forall page_num,
  length (records_from page_num ps) = length ps.
Proof. induction ps as [|page rest IH]; intros; simpl; [done|by rewrite IH]. Qed.

Lemma records_from_lookup ps : forall page_num (j : nat),
  records_from page_num ps !! j =
  page_record (page_num + Z.of_nat j) <$> ps !! j.
Proof.
  induction ps as [|page rest IH]; intros page_num [|j]; simpl; try done.
  - by rewrite Z.add_0_r.
  - rewrite IH. do 2 f_equal. lia.
Qed.

Lemma contributions_app ps qs :
  contributions (ps ++ qs) = contributions ps ++ contributions qs.
Proof. induction ps as [|p ps IH]; simpl; [done|]. by rewrite IH, app_assoc. Qed.

Lemma assemble_sections pdf :
  Doc.sections (assemble pdf) = records_from 0 (pages pdf).
Proof. unfold assemble. by rewrite pages_loop_spec. Qed.

Lemma full_text_of_spec pdf : full_text_of pdf = contributions (pages pdf).
Proof. unfold full_text_of. by rewrite pages_loop_spec. Qed.

Lemma assemble_text_content pdf :
  Doc.text_content (assemble pdf) = strip (full_text_of pdf).
Proof.
  unfold assemble, full_text_of.
  by destruct (pages_loop _ _ _ _).
Qed.

Lemma assemble_word_count pdf :
  Doc.word_count (assemble pdf) = len (split (full_text_of pdf)).
Proof.
  unfold assemble, full_text_of.
  by destruct (pages_loop _ _ _ _).
Qed.

Lemma assemble_page_count pdf :
  Doc.page_count (assemble pdf) = len (pages pdf).
Proof.
  unfold assemble. by destruct (pages_loop _ _ _ _).
Qed.

Lemma assemble_metadata pdf :
  Doc.metadata (assemble pdf) =
  extract_metadata (reader_metadata pdf).
Proof.
  unfold assemble. by destruct (pages_loop _ _ _ _).
Qed.

(** A document is returned exactly when the reader opens the file. *)
Lemma extract_text_from_pdf_inr file d :
  extract_text_from_pdf file = inr d <->
  exists pdf, open_reader file = inr pdf /\ d = assemble pdf.
Proof.
  unfold extract_text_from_pdf.
  destruct (open_reader file) as [e|pdf]; split.
  - done.
  - by intros (pdf & ? & _).
  - intros [= <-]. by exists pdf.
  - by intros (pdf' & [= <-] & ->).
Qed.

(** ** Properties of the extractor *)

(** C5. Every document the extractor returns has one section for each
    page of the reader, failed pages included, and [page_count] is that
    number of pages: the number of sections equals [page_count]. *)
Theorem sections_match_page_count file d :
  extract_text_from_pdf file = inr d ->
  exists pdf,
    open_reader file = inr pdf /\
    length (Doc.sections d) = length (pages pdf) /\
    Doc.page_count d = len (pages pdf) /\
    len (Doc.sections d) = Doc.page_count d.
Proof.
  intros (pdf & Hopen & ->)%extract_text_from_pdf_inr.
  exists pdf. split; [done|].
  rewrite assemble_sections, assemble_page_count.
  unfold len. rewrite records_from_length. done.
Qed.

(** C4. In every document the extractor returns, [word_count] is the
    number of tokens of the trimmed accumulator, and [text_content] is
    the trimmed accumulator. *)
Theorem aggregate_word_count file d :
  extract_text_from_pdf file = inr d ->
  exists pdf,
    open_reader file = inr pdf /\
    Doc.text_content d = strip (full_text_of pdf) /\
    Doc.word_count d = len (split (strip (full_text_of pdf))) /\
    Doc.word_count d = len (split (Doc.text_content d)).
Proof.
  intros (pdf & Hopen & ->)%extract_text_from_pdf_inr.
  exists pdf. rewrite assemble_text_content, assemble_word_count.
  by rewrite split_strip.
Qed.

Lemma contributions_take_S ps k page :
  ps !! k = Some page ->
  contributions (take (S k) ps) = contributions (take k ps) ++ page_contribution page.
Proof.
  intros Hk. rewrite (take_S_r _ _ _ Hk), contributions_app. simpl.
  by rewrite app_nil_r.
Qed.

Lemma contributions_delete ps k e :
  ps !! k = Some (BrokenPage e) ->
  contributions (delete k ps) = contributions ps.
Proof.
  intros Hk. rewrite <- (take_drop_middle _ _ _ Hk) at 2.
  by rewrite delete_take_drop, !contributions_app.
Qed.

(** C2. When the text of page [k] cannot be extracted, section [k] is
    the placeholder with counts 0 and the description of the error;
    the accumulator is after page [k] what it was before, and at the end
    what it is for the document without page [k]; a document is returned
    with a section for every page; the sections of the other pages do
    not depend on page [k]; and [page_count] counts page [k]. *)
Theorem failed_page_isolated file pdf (k : nat) e :
  open_reader file = inr pdf ->
  pages pdf !! k = Some (BrokenPage e) ->
  exists d s,
    extract_text_from_pdf file = inr d /\
    Doc.sections d !! k = Some s /\
    Sec.page_number s = Z.of_nat k + 1 /\
    Sec.content s = placeholder /\
    Sec.word_count s = 0 /\
    Sec.char_count s = 0 /\
    Sec.error s = Some (exn_str e) /\
    fst (pages_loop 0 (take (S k) (pages pdf)) [] []) =
      fst (pages_loop 0 (take k (pages pdf)) [] []) /\
    full_text_of pdf = full_text_of (without_page pdf k) /\
    length (Doc.sections d) = length (pages pdf) /\
    (forall page' (j : nat), j <> k ->
       Doc.sections (assemble (with_page pdf k page')) !! j =
       Doc.sections d !! j) /\
    Doc.page_count d = len (pages pdf) /\
    Z.of_nat k < Doc.page_count d.
Proof.
  intros Hopen Hk. exists (assemble pdf), (error_section (Z.of_nat k) e).
  split; [by apply extract_text_from_pdf_inr; exists pdf|].
  rewrite assemble_sections, assemble_page_count, records_from_lookup, Hk.
  split; [done|]. do 5 (split; [reflexivity|]).
  split; [|split; [|split; [|split; [|split]]]].
  - rewrite !pages_loop_spec. simpl.
    rewrite (contributions_take_S _ _ _ Hk). by rewrite app_nil_r.
  - rewrite !full_text_of_spec. simpl. by rewrite (contributions_delete _ _ _ Hk).
  - apply records_from_length.
  - intros page' j Hj. rewrite assemble_sections, !records_from_lookup. simpl.
    by rewrite list_lookup_insert_ne.
  - done.
  - apply lookup_lt_Some in Hk. unfold len. lia.
Qed.

(** C3, as the code has it. For a page whose text is extracted, the
    section holds the trimmed text, the number of tokens of the text
    (which is also that of the trimmed text) and the length of the text
    as extracted, not trimmed; the accumulator receives the text as
    extracted and two newlines. *)
Theorem extracted_page_recorded file pdf (k : nat) page_text :
  open_reader file = inr pdf ->
  pages pdf !! k = Some (TextPage page_text) ->
  exists d s,
    extract_text_from_pdf file = inr d /\
    Doc.sections d !! k = Some s /\
    Sec.page_number s = Z.of_nat k + 1 /\
    Sec.content s = strip page_text /\
    Sec.word_count s = len (split page_text) /\
    Sec.word_count s = len (split (Sec.content s)) /\
    Sec.char_count s = len page_text /\
    Sec.error s = None /\
    fst (pages_loop 0 (take (S k) (pages pdf)) [] []) =
      fst (pages_loop 0 (take k (pages pdf)) [] []) ++ page_text ++ nl2.
Proof.
  intros Hopen Hk. exists (assemble pdf), (page_section (Z.of_nat k) page_text).
  split; [by apply extract_text_from_pdf_inr; exists pdf|].
  rewrite assemble_sections, records_from_lookup, Hk.
  split; [done|]. do 3 (split; [reflexivity|]).
  split; [simpl; by rewrite split_strip|]. do 2 (split; [reflexivity|]).
  rewrite !pages_loop_spec. simpl. apply (contributions_take_S _ _ _ Hk).
Qed.

Lemma split_app_nl2 a b : split (a ++ nl2 ++ b) = split a ++ split b.
Proof.
  unfold split, nl2. simpl.
  rewrite split_go_app_blank by reflexivity. reflexivity.
Qed.

Lemma contributions_word_count ps : forall page_num,
  len (split (contributions ps)) =
  sum (Sec.word_count <$> records_from page_num ps).
Proof.
  induction ps as [|page rest IH]; intros page_num; [done|].
  simpl. unfold page_contribution, page_record.
  destruct (page_extract_text page) as [e|page_text]; simpl.
  - rewrite <- IH. reflexivity.
  - rewrite <- IH, <- app_assoc, split_app_nl2.
    unfold len. rewrite length_app. lia.
Qed.

(** C10. In every document the extractor returns, [word_count] is the
    sum of the [word_count] of its sections. *)
Theorem word_count_is_sum_of_sections file d :
  extract_text_from_pdf file = inr d ->
  Doc.word_count d = sum (Sec.word_count <$> Doc.sections d).
Proof.
  intros (pdf & _ & ->)%extract_text_from_pdf_inr.
  rewrite assemble_word_count, assemble_sections, full_text_of_spec.
  apply contributions_word_count.
Qed.

Lemma contributions_text_pages texts :
  texts <> [] ->
  contributions (TextPage <$> texts) = join nl2 texts ++ nl2.
Proof.
  induction texts as [|t texts IH]; [done|]. intros _.
  destruct texts as [|t' texts].
  - simpl. by rewrite app_nil_r.
  - change (join nl2 (t :: t' :: texts)) with (t ++ nl2 ++ join nl2 (t' :: texts)).
    change (contributions (TextPage <$> t :: t' :: texts))
      with ((t ++ nl2) ++ contributions (TextPage <$> t' :: texts)).
    rewrite IH by done. by rewrite <- !app_assoc.
Qed.

(** C6. When the text of every page is extracted, [text_content] is the
    texts of the pages joined by two newlines, trimmed. *)
Theorem full_text_is_trimmed_join file pdf texts :
  open_reader file = inr pdf ->
  pages pdf = TextPage <$> texts ->
  exists d,
    extract_text_from_pdf file = inr d /\
    Doc.text_content d = strip (join nl2 texts).
Proof.
  intros Hopen Hpages. exists (assemble pdf).
  split; [by apply extract_text_from_pdf_inr; exists pdf|].
  rewrite assemble_text_content, full_text_of_spec, Hpages.
  destruct texts as [|t texts]; [done|].
  rewrite contributions_text_pages by done.
  apply strip_blank_tail, blank_nl2.
Qed.

Lemma or_empty_default x : or_empty x = default [] x.
Proof. by destruct x as [[|c s]|]. Qed.

(** C7, as the code has it. When the reader has a metadata object with
    at least one entry, [metadata] has exactly the seven keys, each
    bound to a string: the value of the property, or the empty string
    when the property is absent; a date is bound to its rendering. When
    the reader has no metadata object, or an empty one, [metadata] is
    the empty dictionary. *)
Theorem metadata_fields file d :
  extract_text_from_pdf file = inr d ->
  exists pdf,
    open_reader file = inr pdf /\
    (forall info,
       reader_metadata pdf = Some info -> raw_entries info <> 0%nat ->
       dom (Doc.metadata d) =
         ({[ "title"; "author"; "subject"; "creator"; "producer";
             "creation_date"; "modification_date" ]} : gset string) /\
       Doc.metadata d !! "title" = Some (default [] (title info)) /\
       Doc.metadata d !! "author" = Some (default [] (author info)) /\
       Doc.metadata d !! "subject" = Some (default [] (subject info)) /\
       Doc.metadata d !! "creator" = Some (default [] (creator info)) /\
       Doc.metadata d !! "producer" = Some (default [] (producer info)) /\
       Doc.metadata d !! "creation_date" =
         Some (from_option datetime_str [] (creation_date info)) /\
       Doc.metadata d !! "modification_date" =
         Some (from_option datetime_str [] (modification_date info))) /\
    (reader_metadata pdf = None \/
     (exists info, reader_metadata pdf = Some info /\ raw_entries info = 0%nat) ->
     Doc.metadata d = ∅).
Proof.
  intros (pdf & Hopen & ->)%extract_text_from_pdf_inr.
  exists pdf. split; [done|]. rewrite assemble_metadata. split.
  - intros info -> Hraw. unfold extract_metadata, info_truthy.
    destruct (raw_entries info) as [|n]; [done|]. simpl.
    rewrite !or_empty_default. split; [|by simplify_map_eq].
    rewrite !dom_insert_L, dom_empty_L. set_solver.
  - intros [-> | (info & -> & Hraw)]; [done|].
    unfold extract_metadata, info_truthy. by rewrite Hraw.
Qed.

End Extraction.

(** ** Properties of the analyzer and of the endpoints *)

Section Endpoints.

Context {L : Libraries}.

Lemma filter_truthy_strip (l : list str) :
  List.filter (fun piece => truthy (strip piece)) l =
  filter (fun piece => strip piece <> []) l.
Proof.
  induction l as [|x l IH]; [done|].
  rewrite filter_cons. simpl. rewrite IH.
  destruct (strip x); by case_decide.
Qed.

(** C9. [avg_words_per_page] is the quotient of [word_count] by
    [page_count] when [page_count] is positive, and the integer 0 when
    it is 0; no division is made in the second case. *)
Theorem avg_words_per_page_guarded now_ms (r : Resp.t) :
  (0 < Resp.page_count r ->
   exists q,
     Stats.avg_words_per_page (Analysis.basic_stats (analyze now_ms r)) = Float q /\
     q = Qdiv (inject_Z (Resp.word_count r)) (inject_Z (Resp.page_count r)) /\
     Qeq (Qmult q (inject_Z (Resp.page_count r))) (inject_Z (Resp.word_count r))) /\
  (Resp.page_count r = 0 ->
   Stats.avg_words_per_page (Analysis.basic_stats (analyze now_ms r)) = Int 0).
Proof.
  simpl. unfold avg_words. split.
  - intros Hpos. eexists. split; [|split; [reflexivity|]].
    + destruct (Z.gtb_spec (Resp.page_count r) 0); [reflexivity|lia].
    + rewrite Qmult_comm. apply Qmult_div_r. unfold Qeq. simpl. lia.
  - by intros ->.
Qed.

(** The analysis never fails on the response of [extract_text]. *)
Lemma analyze_document_total now now_ms file document_id r :
  extract_text now file document_id = inr r ->
  analyze_document now now_ms file document_id = inr (analyze now_ms r) /\
  0 <= Resp.page_count r.
Proof.
  intros Hr. unfold analyze_document. rewrite Hr. split; [done|].
  unfold extract_text in Hr.
  destruct (negb _); [done|].
  destruct (extract_text_from_pdf _) as [e|d] eqn:Hd; [done|].
  injection Hr as <-. simpl.
  apply extract_text_from_pdf_inr in Hd as (pdf & _ & ->).
  rewrite assemble_page_count. unfold len. lia.
Qed.

(** C1. When the reader rejects the bytes of an upload named as a PDF,
    [extract_text_from_pdf] raises an [HTTPException] of status 400 and
    returns no document, and the endpoint [extract_text], which catches
    it with every other exception, answers with status 500. *)
Theorem invalid_document_status now file document_id e :
  endswith (lower (filename file)) (lit ".pdf") = true ->
  open_reader (file_read file) = inl e ->
  extract_text_from_pdf (file_read file) =
    inl (HTTPException 400
           (lit "Failed to extract text from PDF: " ++ exn_str e)) /\
  extract_text now file document_id =
    inl (HTTPException 500
           (lit "Processing failed: " ++
            http_exception_str 400
              (lit "Failed to extract text from PDF: " ++ exn_str e))).
Proof.
  intros Hname Hopen. unfold extract_text, extract_text_from_pdf.
  by rewrite Hname, Hopen.
Qed.

End Endpoints.

(** ** The properties on the sample inputs *)

(** The scenario of the specification: three pages, the last one
    empty. *)
Example scenario_analysis :
  exists a,
    analyze_document (L := scenario_env) 17 17000 sample_upload None = inr a /\
    Analysis.basic_stats a =
      {| Stats.page_count := 3;
         Stats.word_count := 5;
         Stats.sentence_count := 2;
         Stats.paragraph_count := 2;
         Stats.avg_words_per_page := Float (5 # 3) |} /\
    Sec.word_count <$> Analysis.sections a = [2; 3; 0].
Proof. eexists. split; [reflexivity|]. split; reflexivity. Qed.

Lemma sections_match_page_count_witness :
  extract_text_from_pdf (L := sample_env) [] = inr sample_document /\
  length (pages sample_reader) = 3%nat /\
  length (Doc.sections sample_document) = 3%nat /\
  Doc.page_count sample_document = 3 /\
  exists pdf,
    open_reader (Libraries := sample_env) [] = inr pdf /\
    length (Doc.sections sample_document) = length (pages pdf) /\
    Doc.page_count sample_document = len (pages pdf) /\
    len (Doc.sections sample_document) = Doc.page_count sample_document.
Proof.
  split; [reflexivity|]. do 3 (split; [reflexivity|]).
  apply (sections_match_page_count (L := sample_env) [] sample_document).
  reflexivity.
Defined.

Lemma aggregate_word_count_witness :
  extract_text_from_pdf (L := sample_env) [] = inr sample_document /\
  exists pdf,
    open_reader (Libraries := sample_env) [] = inr pdf /\
    Doc.text_content sample_document = strip (full_text_of (L := sample_env) pdf) /\
    Doc.word_count sample_document =
      len (split (strip (full_text_of (L := sample_env) pdf))) /\
    Doc.word_count sample_document =
      len (split (Doc.text_content sample_document)).
Proof.
  split; [reflexivity|].
  apply (aggregate_word_count (L := sample_env) [] sample_document).
  reflexivity.
Defined.

Lemma word_count_is_sum_of_sections_witness :
  extract_text_from_pdf (L := sample_env) [] = inr sample_document /\
  Doc.word_count sample_document =
    sum (Sec.word_count <$> Doc.sections sample_document).
Proof.
  split; [reflexivity|].
  apply (word_count_is_sum_of_sections (L := sample_env) [] sample_document).
  reflexivity.
Defined.

Lemma failed_page_isolated_witness :
  open_reader (Libraries := sample_env) [] = inr sample_reader /\
  pages sample_reader !! 1%nat = Some (BrokenPage (Raised (lit "bad stream"))) /\
  exists d s,
    extract_text_from_pdf (L := sample_env) [] = inr d /\
    Doc.sections d !! 1%nat = Some s /\
    Sec.page_number s = Z.of_nat 1 + 1 /\
    Sec.content s = placeholder /\
    Sec.word_count s = 0 /\
    Sec.char_count s = 0 /\
    Sec.error s = Some (exn_str (L := sample_env) (Raised (lit "bad stream"))) /\
    fst (pages_loop (L := sample_env) 0 (take 2 (pages sample_reader)) [] []) =
      fst (pages_loop (L := sample_env) 0 (take 1 (pages sample_reader)) [] []) /\
    full_text_of (L := sample_env) sample_reader =
      full_text_of (L := sample_env) (without_page sample_reader 1) /\
    length (Doc.sections d) = length (pages sample_reader) /\
    (forall page' (j : nat), j <> 1%nat ->
       Doc.sections (assemble (L := sample_env) (with_page sample_reader 1 page')) !! j =
       Doc.sections d !! j) /\
    Doc.page_count d = len (pages sample_reader) /\
    Z.of_nat 1 < Doc.page_count d.
Proof.
  split; [reflexivity|]. split; [reflexivity|].
  apply (failed_page_isolated (L := sample_env) [] sample_reader 1
           (Raised (lit "bad stream"))); reflexivity.
Defined.

(** C3 as stated fails: the first page of the sample is " Hello world.",
    13 code points long, and its section has [char_count] 13, while the
    trimmed text, its [content], has 12. *)
Lemma char_count_is_not_trimmed_length :
  extract_text_from_pdf (L := sample_env) [] = inr sample_document /\
  pages sample_reader !! 0%nat = Some (TextPage (lit " Hello world.")) /\
  exists s,
    Doc.sections sample_document !! 0%nat = Some s /\
    Sec.content s = strip (lit " Hello world.") /\
    Sec.char_count s = 13 /\
    len (strip (lit " Hello world.")) = 12 /\
    Sec.char_count s <> len (strip (lit " Hello world.")).
Proof.
  split; [reflexivity|]. split; [reflexivity|].
  eexists. split; [reflexivity|]. do 3 (split; [reflexivity|]).
  discriminate.
Qed.

Lemma extracted_page_recorded_witness :
  open_reader (Libraries := sample_env) [] = inr sample_reader /\
  pages sample_reader !! 0%nat = Some (TextPage (lit " Hello world.")) /\
  exists d s,
    extract_text_from_pdf (L := sample_env) [] = inr d /\
    Doc.sections d !! 0%nat = Some s /\
    Sec.page_number s = Z.of_nat 0 + 1 /\
    Sec.content s = strip (lit " Hello world.") /\
    Sec.word_count s = len (split (lit " Hello world.")) /\
    Sec.word_count s = len (split (Sec.content s)) /\
    Sec.char_count s = len (lit " Hello world.") /\
    Sec.error s = None /\
    fst (pages_loop (L := sample_env) 0 (take 1 (pages sample_reader)) [] []) =
      fst (pages_loop (L := sample_env) 0 (take 0 (pages sample_reader)) [] [])
      ++ lit " Hello world." ++ nl2.
Proof.
  split; [reflexivity|]. split; [reflexivity|].
  apply (extracted_page_recorded (L := sample_env) [] sample_reader 0
           (lit " Hello world.")); reflexivity.
Defined.

Lemma full_text_is_trimmed_join_witness :
  open_reader (Libraries := scenario_env) [] = inr scenario_reader /\
  pages scenario_reader = TextPage <$> scenario_texts /\
  exists d,
    extract_text_from_pdf (L := scenario_env) [] = inr d /\
    Doc.text_content d = strip (join nl2 scenario_texts).
Proof.
  split; [reflexivity|]. split; [reflexivity|].
  apply (full_text_is_trimmed_join (L := scenario_env) [] scenario_reader
           scenario_texts); reflexivity.
Defined.

(** C7 as stated fails: the sample has no metadata object, and the
    [metadata] returned for it is the empty dictionary, with no title. *)
Lemma no_metadata_no_fields :
  reader_metadata sample_reader = None /\
  extract_text_from_pdf (L := sample_env) [] = inr sample_document /\
  Doc.metadata sample_document = ∅ /\
  Doc.metadata sample_document !! "title" = None.
Proof. repeat split. Qed.

Lemma metadata_fields_witness :
  extract_text_from_pdf (L := titled_env) [] =
    inr (assemble (L := titled_env) titled_reader) /\
  Doc.metadata (assemble (L := titled_env) titled_reader) !! "title" =
    Some (lit "Annual report") /\
  Doc.metadata (assemble (L := titled_env) titled_reader) !! "author" =
    Some (lit "") /\
  Doc.metadata (assemble (L := titled_env) titled_reader) !! "creation_date" =
    Some (lit "2024-01-31 09:30:00") /\
  Doc.metadata (assemble (L := titled_env) titled_reader) !! "modification_date" =
    Some (lit "").
Proof.
  split; [reflexivity|].
  destruct (metadata_fields (L := titled_env) []
              (assemble (L := titled_env) titled_reader) eq_refl)
    as (pdf & Hopen & Hsome & _).
  injection Hopen as <-.
  destruct (Hsome _ eq_refl ltac:(discriminate))
    as (_ & Htitle & Hauthor & _ & _ & _ & Hcreated & Hmodified).
  repeat split; assumption.
Defined.

Lemma avg_words_per_page_guarded_witness :
  0 < Resp.page_count sample_response /\
  exists q,
    Stats.avg_words_per_page
      (Analysis.basic_stats (analyze 17000 sample_response)) =
      Float q /\
    q = Qdiv (inject_Z (Resp.word_count sample_response))
             (inject_Z (Resp.page_count sample_response)) /\
    Qeq (Qmult q (inject_Z (Resp.page_count sample_response)))
        (inject_Z (Resp.word_count sample_response)).
Proof.
  split; [reflexivity|].
  apply (proj1 (avg_words_per_page_guarded 17000 sample_response)).
  reflexivity.
Defined.

Lemma invalid_document_status_witness :
  endswith (lower (filename sample_upload)) (lit ".pdf") = true /\
  open_reader (Libraries := rejecting_env) (file_read sample_upload) =
    inl (Raised (lit "EOF marker not found")) /\
  extract_text_from_pdf (L := rejecting_env) (file_read sample_upload) =
    inl (HTTPException 400
           (lit "Failed to extract text from PDF: EOF marker not found")) /\
  extract_text (L := rejecting_env) 17 sample_upload None =
    inl (HTTPException 500
           (lit "Processing failed: 400: Failed to extract text from PDF: EOF marker not found")).
Proof.
  split; [reflexivity|]. split; [reflexivity|].
  apply (invalid_document_status (L := rejecting_env) 17 sample_upload None
           (Raised (lit "EOF marker not found"))); reflexivity.
Defined.

(** ** Further facts about [strip()], [split()] and [endswith()] *)

Lemma drop_while_idem p s : drop_while p (drop_while p s) = drop_while p s.
Proof.
  induction s as [|c s IH]; simpl; [done|].
  destruct (p c) eqn:Hc; [done|]. simpl. by rewrite Hc.
Qed.

Lemma drop_while_head p s c r : drop_while p s = c :: r -> p c = false.
Proof.
  induction s as [|x s IH]; simpl; [done|].
  destruct (p x) eqn:Hx; [done|]. by intros [= <- _].
Qed.

Lemma drop_while_length p s : (length (drop_while p s) <= length s)%nat.
Proof.
  induction s as [|c s IH]; simpl; [done|].
  destruct (p c); simpl; lia.
Qed.

Lemma rstrip_cons c r : isspace c = false -> rstrip (c :: r) = c :: rstrip r.
Proof.
  intros Hc. unfold rstrip. simpl. rewrite drop_while_app. simpl. rewrite Hc.
  destruct (drop_while isspace (rev r)); simpl; [done|].
  by rewrite rev_app_distr.
Qed.

Lemma rstrip_idem s : rstrip (rstrip s) = rstrip s.
Proof. unfold rstrip. by rewrite rev_involutive, drop_while_idem. Qed.

(** Trimming what is trimmed changes nothing. *)
Lemma strip_idem s : strip (strip s) = strip s.
Proof.
  unfold strip at 2 3. unfold lstrip.
  destruct (drop_while isspace s) as [|c r] eqn:Hs; [done|].
  pose proof (drop_while_head _ _ _ _ Hs) as Hc.
  rewrite (rstrip_cons c r Hc). unfold strip, lstrip. simpl. rewrite Hc.
  by rewrite <- (rstrip_cons c r Hc), rstrip_idem.
Qed.

Lemma strip_length s : (length (strip s) <= length s)%nat.
Proof.
  unfold strip, rstrip, lstrip. rewrite length_rev.
  etrans; [apply drop_while_length|]. rewrite length_rev.
  apply drop_while_length.
Qed.

Lemma split_go_length tok s :
  (length (split_go tok s) <= length (flush tok) + length s)%nat.
Proof.
  revert tok. induction s as [|c s IH]; intros tok; simpl; [lia|].
  destruct (isspace c).
  - rewrite length_app. specialize (IH []). simpl in IH. lia.
  - specialize (IH (c :: tok)). simpl in IH. lia.
Qed.

(** There are no more tokens than code points. *)
Lemma split_length s : (length (split s) <= length s)%nat.
Proof. apply (split_go_length [] s). Qed.

Lemma split_go_nil tok s : split_go tok s = [] <-> tok = [] /\ blank s.
Proof.
  unfold blank. revert tok. induction s as [|c s IH]; intros tok; simpl.
  - destruct tok; split; try done. by intros [? _].
  - destruct (isspace c); simpl.
    + split.
      * intros [Htok Hs]%app_eq_nil. destruct tok; [|done].
        split; [done|]. by apply IH in Hs as [_ ?].
      * intros [-> Hs]. simpl. apply IH. done.
    + rewrite IH. split; [by intros [? _]|by intros [_ ?]].
Qed.

(** A string has no token exactly when it is white space only. *)
Lemma split_nil s : split s = [] <-> blank s.
Proof.
  unfold split. rewrite split_go_nil. split; [by intros [_ ?]|done].
Qed.

(** Trimming leaves nothing exactly when the string is white space
    only. *)
Lemma strip_nil s : strip s = [] <-> blank s.
Proof.
  split.
  - intros Hs. apply split_nil. by rewrite <- split_strip, Hs.
  - intros Hs. unfold strip, lstrip. rewrite drop_while_blank by done.
    reflexivity.
Qed.

Lemma startswith_prefix pre t : startswith (pre ++ t) pre = true.
Proof.
  induction pre as [|p pre IH]; simpl.
  - by destruct t.
  - by rewrite N.eqb_refl, IH.
Qed.

Lemma endswith_spec s suf :
  endswith s suf = true <-> exists stem, s = stem ++ suf.
Proof.
  unfold endswith. split.
  - intros [t Ht]%startswith_app. exists (rev t).
    by rewrite <- (rev_involutive s), Ht, rev_app_distr, rev_involutive.
  - intros [stem ->]. rewrite rev_app_distr. apply startswith_prefix.
Qed.

(** ** Sections and text of a returned document *)

Section Documents.

Context {L : Libraries}.

(** X1. The sections are numbered from 1 in page order, and each is of
    type "page". *)
Theorem sections_numbered_in_order file d (j : nat) s :
  extract_text_from_pdf file = inr d ->
  Doc.sections d !! j = Some s ->
  Sec.type s = lit "page" /\ Sec.page_number s = Z.of_nat j + 1.
Proof.
  intros (pdf & _ & ->)%extract_text_from_pdf_inr.
  rewrite assemble_sections, records_from_lookup.
  destruct (pages pdf !! j) as [page|]; [|done].
  intros [= <-]. unfold page_record.
  by destruct (page_extract_text page).
Qed.

Lemma records_from_elem s ps : forall page_num,
  s ∈ records_from page_num ps ->
  exists n page, page ∈ ps /\ s = page_record n page.
Proof.
  induction ps as [|page rest IH]; intros page_num; simpl.
  - by intros ?%elem_of_nil.
  - intros [->|Hs]%elem_of_cons.
    + exists page_num, page. split; [left|done].
    + destruct (IH _ Hs) as (n & page' & Hin & ->).
      exists n, page'. split; [by right|done].
Qed.

(** X2. In every section the counts are not negative, there are no more
    words than code points counted, and the content is no longer than
    [char_count] unless it is the placeholder of a failed page, which has
    both counts 0. *)
Theorem section_counts_bounded file d s :
  extract_text_from_pdf file = inr d ->
  s ∈ Doc.sections d ->
  0 <= Sec.word_count s <= Sec.char_count s /\
  (Sec.error s = None -> len (Sec.content s) <= Sec.char_count s) /\
  (Sec.error s <> None ->
   Sec.content s = placeholder /\ Sec.word_count s = 0 /\ Sec.char_count s = 0).
Proof.
  intros (pdf & _ & ->)%extract_text_from_pdf_inr.
  rewrite assemble_sections.
  intros (n & page & _ & ->)%records_from_elem.
  unfold page_record. destruct (page_extract_text page) as [e|page_text]; simpl.
  - split; [lia|]. split; [done|]. done.
  - unfold len. pose proof (split_length page_text).
    pose proof (strip_length page_text).
    split; [lia|]. split; [lia|]. done.
Qed.

(** X3. The text of the document and the content of every section are
    trimmed: trimming them again changes nothing. *)
Theorem returned_text_is_trimmed file d :
  extract_text_from_pdf file = inr d ->
  strip (Doc.text_content d) = Doc.text_content d /\
  (forall s, s ∈ Doc.sections d -> strip (Sec.content s) = Sec.content s).
Proof.
  intros (pdf & _ & ->)%extract_text_from_pdf_inr.
  rewrite assemble_text_content, assemble_sections.
  split; [apply strip_idem|].
  intros s (n & page & _ & ->)%records_from_elem.
  unfold page_record. destruct (page_extract_text page) as [e|page_text]; simpl.
  - reflexivity.
  - apply strip_idem.
Qed.

Lemma contributions_extracted ps :
  contributions ps = contributions (TextPage <$> extracted_texts ps).
Proof.
  induction ps as [|page rest IH]; [done|].
  simpl. unfold page_contribution.
  destruct (page_extract_text page) as [e|page_text]; simpl; by rewrite IH.
Qed.

(** X4. The text of the document is made of the pages that could be read
    only: their texts joined by two newlines, trimmed. *)
Theorem text_content_skips_failed_pages file d :
  extract_text_from_pdf file = inr d ->
  exists pdf,
    open_reader file = inr pdf /\
    Doc.text_content d = strip (join nl2 (extracted_texts (pages pdf))).
Proof.
  intros (pdf & Hopen & ->)%extract_text_from_pdf_inr.
  exists pdf. split; [done|].
  rewrite assemble_text_content, full_text_of_spec, contributions_extracted.
  destruct (extracted_texts (pages pdf)) as [|t texts]; [done|].
  rewrite contributions_text_pages by done.
  apply strip_blank_tail, blank_nl2.
Qed.

Lemma blank_app a b : blank (a ++ b) <-> blank a /\ blank b.
Proof. unfold blank. rewrite forallb_app. apply andb_true_iff. Qed.

Lemma contributions_blank ps : blank (contributions ps) <-> Forall wordless ps.
Proof.
  induction ps as [|page rest IH]; simpl.
  - split; [constructor|done].
  - rewrite blank_app, Forall_cons, IH.
    unfold page_contribution, wordless.
    destruct (page_extract_text page) as [e|page_text].
    + split; [by intros [_ ?]|by intros [_ ?]].
    + rewrite blank_app. pose proof blank_nl2. tauto.
Qed.

(** X5. The document has no word exactly when its text is empty, and
    exactly when every page failed or gave white space only. *)
Theorem no_words_iff_empty_text file d :
  extract_text_from_pdf file = inr d ->
  exists pdf,
    open_reader file = inr pdf /\
    (Doc.word_count d = 0 <-> Doc.text_content d = []) /\
    (Doc.text_content d = [] <-> Forall wordless (pages pdf)).
Proof.
  intros (pdf & Hopen & ->)%extract_text_from_pdf_inr.
  exists pdf. split; [done|].
  rewrite assemble_text_content, assemble_word_count, strip_nil.
  rewrite full_text_of_spec, <- contributions_blank, <- split_nil.
  split; [|done]. unfold len.
  destruct (split (contributions (pages pdf))); simpl; split; try done; lia.
Qed.

End Documents.

(** ** Paragraphs, sentences and words *)

Lemma split_join_nl2 pieces :
  split (join nl2 pieces) = concat (split <$> pieces).
Proof.
  induction pieces as [|x pieces IH]; [done|].
  destruct pieces as [|y pieces].
  - simpl. by rewrite app_nil_r.
  - rewrite join_cons_cons, split_app_nl2, IH. by rewrite !fmap_cons.
Qed.

Lemma nonblank_pieces_tokens (pieces : list str) :
  (length (filter (fun piece => strip piece <> []) pieces)
   <= length (concat (split <$> pieces)))%nat.
Proof.
  induction pieces as [|x pieces IH]; [done|].
  rewrite filter_cons, fmap_cons. cbn [concat]. rewrite length_app.
  case_decide as Hx; cbn [length]; [|lia].
  destruct (split x) eqn:Hsplit; cbn [length]; [|lia].
  exfalso. apply Hx, strip_nil, split_nil, Hsplit.
Qed.

(** The pieces of a text between double newlines that are not blank are
    no more than its tokens. *)
Lemma paragraphs_le_tokens text :
  len (paragraphs text) <= len (split text).
Proof.
  unfold paragraphs, len. rewrite length_map, filter_truthy_strip.
  rewrite <- (join_split_sep text nl2) at 2 by done.
  rewrite split_join_nl2.
  apply inj_le, nonblank_pieces_tokens.
Qed.

Lemma startswith_nil s : startswith s [] = true.
Proof. by destruct s. Qed.

Lemma split_sep_go_char_length d (s : list N) : forall cur,
  length (split_sep_go [d] 0 cur s) = S (length (filter (fun c => c = d) s)).
Proof.
  induction s as [|c s IH]; intros cur; [done|].
  cbn [split_sep_go startswith length Nat.sub].
  rewrite startswith_nil, andb_true_r, filter_cons.
  destruct (N.eqb_spec c d) as [->|Hne].
  - rewrite decide_True by done. simpl. by rewrite IH.
  - rewrite decide_False by done. apply IH.
Qed.

(** ** The two endpoints *)

Section Responses.

Context {L : Libraries}.

Lemma lower_char_inv c t :
  lower_char c = t ->
  c = t \/ ((97 <= t)%N /\ (t <= 122)%N /\ (c + 32)%N = t).
Proof.
  unfold lower_char.
  destruct (65 <=? c)%N eqn:Hlo; destruct (c <=? 90)%N eqn:Hhi; simpl;
    intros <-; try (by left).
  apply N.leb_le in Hlo, Hhi. right. lia.
Qed.

(** X6. The file name test ignores the case of the extension: a name is
    accepted exactly when its four last code points are a full stop,
    "p" or "P", "d" or "D", and "f" or "F"; what stands before them does
    not matter. *)
Theorem pdf_suffix_any_case (name : str) :
  endswith (lower name) (lit ".pdf") = true <->
  exists stem p d f,
    name = stem ++ [46; p; d; f]%N /\
    (p = 112 \/ p = 80)%N /\ (d = 100 \/ d = 68)%N /\ (f = 102 \/ f = 70)%N.
Proof.
  rewrite endswith_spec. unfold lower. split.
  - intros [t Ht]. apply map_eq_app in Ht as (stem & ext & -> & _ & Hext).
    destruct ext as [|c0 [|p [|d [|f [|x ext]]]]]; try done.
    injection Hext as H0 Hp Hd Hf.
    apply lower_char_inv in H0, Hp, Hd, Hf.
    exists stem, p, d, f.
    assert (c0 = 46%N) as -> by lia.
    split; [done|]. lia.
  - intros (stem & p & d & f & -> & Hp & Hd & Hf).
    exists (List.map lower_char stem). rewrite List.map_app. f_equal.
    destruct Hp as [-> | ->], Hd as [-> | ->], Hf as [-> | ->]; reflexivity.
Qed.

(** X7. An upload whose name does not end with ".pdf" is refused by both
    endpoints with status 400, whatever its content and whatever the
    reader would say. *)
Theorem unsupported_file_rejected now now_ms file document_id :
  endswith (lower (filename file)) (lit ".pdf") = false ->
  extract_text now file document_id =
    inl (HTTPException 400 (lit "Only PDF files are supported")) /\
  analyze_document now now_ms file document_id =
    inl (HTTPException 400 (lit "Only PDF files are supported")).
Proof.
  intros Hname. unfold analyze_document, extract_text. by rewrite Hname.
Qed.

(** What a response of [extract_text] is made of. *)
Lemma extract_text_inr now file document_id r :
  extract_text now file document_id = inr r ->
  endswith (lower (filename file)) (lit ".pdf") = true /\
  exists d,
    extract_text_from_pdf (file_read file) = inr d /\
    Resp.document_id r =
      (if truthy (default [] document_id) then default [] document_id
       else lit "doc_" ++ str_of_int now) /\
    Resp.filename r = filename file /\
    Resp.text_content r = Doc.text_content d /\
    Resp.page_count r = Doc.page_count d /\
    Resp.word_count r = Doc.word_count d /\
    Resp.metadata r = Doc.metadata d /\
    Resp.sections r = Doc.sections d.
Proof.
  unfold extract_text.
  destruct (endswith _ _); [|done]. simpl.
  destruct (extract_text_from_pdf _) as [e|d]; [done|].
  intros [= <-]. split; [done|]. by exists d.
Qed.

Lemma analyze_document_inr now now_ms file document_id a :
  analyze_document now now_ms file document_id = inr a ->
  exists r, extract_text now file document_id = inr r /\ a = analyze now_ms r.
Proof.
  unfold analyze_document.
  destruct (extract_text _ _ _) as [e|r]; [done|].
  intros [= <-]. by exists r.
Qed.

(** X8. A response carries the name of the upload and an identifier that is
    never empty: the caller's when one is given and not empty, and
    "doc_" followed by the time in seconds otherwise. *)
Theorem response_identifies_upload now file document_id r :
  extract_text now file document_id = inr r ->
  Resp.filename r = filename file /\
  Resp.document_id r <> [] /\
  (forall given, document_id = Some given -> given <> [] ->
     Resp.document_id r = given) /\
  (document_id = None \/ document_id = Some [] ->
     Resp.document_id r = lit "doc_" ++ str_of_int now).
Proof.
  intros (_ & d & _ & Hid & Hname & _)%extract_text_inr.
  split; [done|]. rewrite Hid. split; [|split].
  - destruct document_id as [[|c given]|]; done.
  - intros given -> Hgiven. by destruct given.
  - by intros [-> | ->].
Qed.

(** X9. Every failure of [analyze_document] is the failure of
    [extract_text], and it is an [HTTPException]: of status 400, for the
    kind of file, when the name of the upload does not end with ".pdf",
    and of status 500, for a failed processing, when it does. *)
Theorem endpoint_failure_status now now_ms file document_id e :
  analyze_document now now_ms file document_id = inl e ->
  extract_text now file document_id = inl e /\
  ((endswith (lower (filename file)) (lit ".pdf") = false /\
    e = HTTPException 400 (lit "Only PDF files are supported")) \/
   (endswith (lower (filename file)) (lit ".pdf") = true /\
    exists cause, e = HTTPException 500 (lit "Processing failed: " ++ cause))).
Proof.
  unfold analyze_document.
  destruct (extract_text now file document_id) as [e0|r] eqn:He; [|done].
  intros [= <-]. split; [done|].
  unfold extract_text in He.
  destruct (endswith _ _); simpl in He.
  - destruct (extract_text_from_pdf _) as [e'|d]; [|done].
    injection He as <-. right. split; [done|]. by eexists.
  - injection He as <-. by left.
Qed.

Lemma document_counts file d :
  extract_text_from_pdf file = inr d ->
  len (Doc.sections d) = Doc.page_count d /\
  Doc.word_count d = sum (Sec.word_count <$> Doc.sections d) /\
  Doc.word_count d = len (split (Doc.text_content d)) /\
  strip (Doc.text_content d) = Doc.text_content d.
Proof.
  intros (pdf & _ & ->)%extract_text_from_pdf_inr.
  rewrite assemble_sections, assemble_page_count, assemble_word_count,
    assemble_text_content, full_text_of_spec, split_strip, strip_idem.
  unfold len at 1 2. rewrite records_from_length.
  split; [done|]. split; [|done]. apply contributions_word_count.
Qed.

(** X10. In an analysis the statistics agree with what is returned beside
    them: [page_count] is the number of sections, [word_count] is the
    sum of the word counts of the sections and the number of tokens of
    the text, the time stamp is the time given, and the average is the
    integer 0 exactly when there is no section. *)
Theorem analysis_agrees_with_sections now now_ms file document_id a :
  analyze_document now now_ms file document_id = inr a ->
  Stats.page_count (Analysis.basic_stats a) = len (Analysis.sections a) /\
  Stats.word_count (Analysis.basic_stats a) =
    sum (Sec.word_count <$> Analysis.sections a) /\
  Stats.word_count (Analysis.basic_stats a) =
    len (split (Analysis.text_content a)) /\
  Analysis.analysis_timestamp a = now_ms /\
  (Stats.avg_words_per_page (Analysis.basic_stats a) = Int 0 <->
   Analysis.sections a = []).
Proof.
  intros (r & Hr & ->)%analyze_document_inr.
  apply extract_text_inr in Hr
    as (_ & d & Hd & _ & _ & Htext & Hpages & Hwords & _ & Hsections).
  simpl. rewrite Htext, Hpages, Hwords, Hsections.
  destruct (document_counts _ _ Hd) as (Hcount & Hsum & Htokens & _).
  rewrite <- Hcount. do 4 (split; [done|]).
  unfold avg_words, len. destruct (Doc.sections d) as [|s l]; [done|].
  split; [|done].
  destruct (Z.gtb_spec (Z.of_nat (length (s :: l))) 0) as [_|Hle]; [done|].
  simpl in Hle. lia.
Qed.

(** X11. In an analysis there are no more paragraphs than words. *)
Theorem paragraphs_le_words now now_ms file document_id a :
  analyze_document now now_ms file document_id = inr a ->
  0 <= Stats.paragraph_count (Analysis.basic_stats a)
    <= Stats.word_count (Analysis.basic_stats a).
Proof.
  intros (r & Hr & ->)%analyze_document_inr.
  apply extract_text_inr in Hr
    as (_ & d & Hd & _ & _ & Htext & _ & Hwords & _).
  simpl. rewrite Htext, Hwords.
  destruct (document_counts _ _ Hd) as (_ & _ & -> & _).
  split; [unfold len; lia|apply paragraphs_le_tokens].
Qed.

(** X12. An analysis without words has no sentence, no paragraph and an
    empty text. *)
Theorem wordless_analysis now now_ms file document_id a :
  analyze_document now now_ms file document_id = inr a ->
  Stats.word_count (Analysis.basic_stats a) = 0 ->
  Analysis.text_content a = [] /\
  Stats.sentence_count (Analysis.basic_stats a) = 0 /\
  Stats.paragraph_count (Analysis.basic_stats a) = 0.
Proof.
  intros (r & Hr & ->)%analyze_document_inr.
  apply extract_text_inr in Hr
    as (_ & d & Hd & _ & _ & Htext & _ & Hwords & _).
  simpl. rewrite Htext, Hwords.
  destruct (document_counts _ _ Hd) as (_ & _ & -> & Htrim).
  intros Hzero.
  assert (Doc.text_content d = []) as ->; [|done].
  rewrite <- Htrim. apply strip_nil, split_nil.
  unfold len in Hzero. destruct (split (Doc.text_content d)); [done|].
  simpl in Hzero. lia.
Qed.

End Responses.

(** X13. In every analysis there is at most one sentence more than there are
    full stops in the text. *)
Theorem sentences_bounded_by_full_stops now_ms (r : Resp.t) :
  Stats.sentence_count (Analysis.basic_stats (analyze now_ms r))
  <= len (filter (fun c => c = 46%N) (Resp.text_content r)) + 1.
Proof.
  simpl. unfold sentences, len. rewrite length_map.
  pose proof (filter_length (fun s => truthy (strip s))
                (split_sep (Resp.text_content r) (lit "."))) as Hle.
  unfold split_sep in *. change (lit ".") with [46%N] in *.
  rewrite split_sep_go_char_length in Hle. unfold str in *. lia.
Qed.

(** ** The further properties on the sample inputs *)

Lemma sections_numbered_in_order_witness :
  extract_text_from_pdf (L := sample_env) [] = inr sample_document /\
  Doc.sections sample_document !! 2%nat =
    Some (page_section 2 (lit "Foo bar baz.")) /\
  Sec.type (page_section 2 (lit "Foo bar baz.")) = lit "page" /\
  Sec.page_number (page_section 2 (lit "Foo bar baz.")) = Z.of_nat 2 + 1.
Proof.
  split; [reflexivity|]. split; [reflexivity|].
  apply (sections_numbered_in_order (L := sample_env) [] sample_document 2);
    reflexivity.
Defined.

Lemma section_counts_bounded_witness :
  extract_text_from_pdf (L := sample_env) [] = inr sample_document /\
  page_section 0 (lit " Hello world.") ∈ Doc.sections sample_document /\
  0 <= Sec.word_count (page_section 0 (lit " Hello world."))
    <= Sec.char_count (page_section 0 (lit " Hello world.")) /\
  (Sec.error (page_section 0 (lit " Hello world.")) = None ->
   len (Sec.content (page_section 0 (lit " Hello world.")))
   <= Sec.char_count (page_section 0 (lit " Hello world."))) /\
  (Sec.error (page_section 0 (lit " Hello world.")) <> None ->
   Sec.content (page_section 0 (lit " Hello world.")) = placeholder /\
   Sec.word_count (page_section 0 (lit " Hello world.")) = 0 /\
   Sec.char_count (page_section 0 (lit " Hello world.")) = 0).
Proof.
  split; [reflexivity|]. split; [apply list_elem_of_here|].
  apply (section_counts_bounded (L := sample_env) [] sample_document);
    [reflexivity|apply list_elem_of_here].
Defined.

Lemma returned_text_is_trimmed_witness :
  extract_text_from_pdf (L := sample_env) [] = inr sample_document /\
  strip (Doc.text_content sample_document) = Doc.text_content sample_document /\
  (forall s, s ∈ Doc.sections sample_document ->
     strip (Sec.content s) = Sec.content s).
Proof.
  split; [reflexivity|].
  apply (returned_text_is_trimmed (L := sample_env) [] sample_document).
  reflexivity.
Defined.

Lemma text_content_skips_failed_pages_witness :
  extract_text_from_pdf (L := sample_env) [] = inr sample_document /\
  exists pdf,
    open_reader (Libraries := sample_env) [] = inr pdf /\
    Doc.text_content sample_document =
      strip (join nl2 (extracted_texts (pages pdf))).
Proof.
  split; [reflexivity|].
  apply (text_content_skips_failed_pages (L := sample_env) [] sample_document).
  reflexivity.
Defined.

Lemma no_words_iff_empty_text_witness :
  extract_text_from_pdf (L := wordless_env) [] =
    inr (assemble (L := wordless_env) wordless_reader) /\
  exists pdf,
    open_reader (Libraries := wordless_env) [] = inr pdf /\
    (Doc.word_count (assemble (L := wordless_env) wordless_reader) = 0 <->
     Doc.text_content (assemble (L := wordless_env) wordless_reader) = []) /\
    (Doc.text_content (assemble (L := wordless_env) wordless_reader) = [] <->
     Forall wordless (pages pdf)).
Proof.
  split; [reflexivity|].
  apply (no_words_iff_empty_text (L := wordless_env) []
           (assemble (L := wordless_env) wordless_reader)).
  reflexivity.
Defined.

Lemma unsupported_file_rejected_witness :
  endswith (lower (filename text_upload)) (lit ".pdf") = false /\
  extract_text (L := sample_env) 17 text_upload None =
    inl (HTTPException 400 (lit "Only PDF files are supported")) /\
  analyze_document (L := sample_env) 17 17000 text_upload None =
    inl (HTTPException 400 (lit "Only PDF files are supported")).
Proof.
  split; [reflexivity|].
  apply (unsupported_file_rejected (L := sample_env) 17 17000 text_upload None).
  reflexivity.
Defined.

Lemma response_identifies_upload_witness :
  extract_text (L := sample_env) 17 sample_upload None = inr sample_extraction /\
  Resp.filename sample_extraction = filename sample_upload /\
  Resp.document_id sample_extraction <> [] /\
  (forall given, @None str = Some given -> given <> [] ->
     Resp.document_id sample_extraction = given) /\
  (@None str = None \/ @None str = Some [] ->
     Resp.document_id sample_extraction = lit "doc_" ++ str_of_int 17).
Proof.
  split; [reflexivity|].
  apply (response_identifies_upload (L := sample_env) 17 sample_upload None
           sample_extraction).
  reflexivity.
Defined.

Lemma endpoint_failure_status_witness :
  analyze_document (L := rejecting_env) 17 17000 sample_upload None =
    inl (HTTPException 500
           (lit "Processing failed: 400: Failed to extract text from PDF: EOF marker not found")) /\
  extract_text (L := rejecting_env) 17 sample_upload None =
    inl (HTTPException 500
           (lit "Processing failed: 400: Failed to extract text from PDF: EOF marker not found")) /\
  ((endswith (lower (filename sample_upload)) (lit ".pdf") = false /\
    HTTPException 500
      (lit "Processing failed: 400: Failed to extract text from PDF: EOF marker not found") =
    HTTPException 400 (lit "Only PDF files are supported")) \/
   (endswith (lower (filename sample_upload)) (lit ".pdf") = true /\
    exists cause,
      HTTPException 500
        (lit "Processing failed: 400: Failed to extract text from PDF: EOF marker not found") =
      HTTPException 500 (lit "Processing failed: " ++ cause))).
Proof.
  split; [reflexivity|].
  apply (endpoint_failure_status (L := rejecting_env) 17 17000 sample_upload None).
  reflexivity.
Defined.

Lemma analysis_agrees_with_sections_witness :
  analyze_document (L := sample_env) 17 17000 sample_upload None =
    inr (analyze 17000 sample_extraction) /\
  Stats.page_count (Analysis.basic_stats (analyze 17000 sample_extraction)) =
    len (Analysis.sections (analyze 17000 sample_extraction)) /\
  Stats.word_count (Analysis.basic_stats (analyze 17000 sample_extraction)) =
    sum (Sec.word_count <$> Analysis.sections (analyze 17000 sample_extraction)) /\
  Stats.word_count (Analysis.basic_stats (analyze 17000 sample_extraction)) =
    len (split (Analysis.text_content (analyze 17000 sample_extraction))) /\
  Analysis.analysis_timestamp (analyze 17000 sample_extraction) = 17000 /\
  (Stats.avg_words_per_page (Analysis.basic_stats (analyze 17000 sample_extraction)) =
     Int 0 <->
   Analysis.sections (analyze 17000 sample_extraction) = []).
Proof.
  split; [reflexivity|].
  apply (analysis_agrees_with_sections (L := sample_env) 17 17000 sample_upload None).
  reflexivity.
Defined.

Lemma paragraphs_le_words_witness :
  analyze_document (L := sample_env) 17 17000 sample_upload None =
    inr (analyze 17000 sample_extraction) /\
  0 <= Stats.paragraph_count (Analysis.basic_stats (analyze 17000 sample_extraction))
    <= Stats.word_count (Analysis.basic_stats (analyze 17000 sample_extraction)).
Proof.
  split; [reflexivity|].
  apply (paragraphs_le_words (L := sample_env) 17 17000 sample_upload None).
  reflexivity.
Defined.

Lemma wordless_analysis_witness :
  analyze_document (L := wordless_env) 17 17000 sample_upload None =
    inr (analyze 17000 wordless_extraction) /\
  Stats.word_count (Analysis.basic_stats (analyze 17000 wordless_extraction)) = 0 /\
  Analysis.text_content (analyze 17000 wordless_extraction) = [] /\
  Stats.sentence_count (Analysis.basic_stats (analyze 17000 wordless_extraction)) = 0 /\
  Stats.paragraph_count (Analysis.basic_stats (analyze 17000 wordless_extraction)) = 0.
Proof.
  split; [reflexivity|]. split; [reflexivity|].
  apply (wordless_analysis (L := wordless_env) 17 17000 sample_upload None);
    reflexivity.
Defined.

(** ** The scan of [split(sep)] cuts at the separator *)

Lemma prefix_startswith (sep s : str) : sep `prefix_of` s -> startswith s sep = true.
Proof. intros [t ->]. apply startswith_prefix. Qed.

Lemma occurs_at_beyond (sep text : str) i :
  sep <> [] -> (length text <= i)%nat -> ~ occurs_at sep text i.
Proof.
  intros Hsep Hi. unfold occurs_at. rewrite drop_ge by done.
  intros Hpre. by apply prefix_nil_inv in Hpre.
Qed.

Lemma occurs_at_shift (sep : str) cur (s : str) i :
  occurs_at sep (rev cur ++ s) (length cur + i) <-> occurs_at sep s i.
Proof.
  unfold occurs_at. rewrite <- (length_rev cur), drop_app_add'; done.
Qed.

(** What the scan returns is a cut of the text it has read and still
    has to read, provided the separator occurs nowhere in the piece
    being read. *)
Lemma split_sep_go_cut sep :
  sep <> [] ->
  forall n (s cur : str),
    (length s <= n)%nat ->
    (forall i, (i < length cur)%nat -> ~ occurs_at sep (rev cur ++ s) i) ->
    cut_at sep (rev cur ++ s) (split_sep_go sep 0 cur s).
Proof.
  intros Hsep.
  assert (forall cur : str,
    (forall i, (i < length cur)%nat -> ~ occurs_at sep (rev cur ++ []) i) ->
    cut_at sep (rev cur ++ []) (split_sep_go sep 0 cur [])) as Hnil.
  { intros cur Hcur. cbn [split_sep_go]. rewrite app_nil_r in *.
    apply cut_at_end. intros i.
    destruct (decide (i < length cur)%nat) as [Hi|Hi]; [by apply Hcur|].
    apply occurs_at_beyond; [done|]. rewrite length_rev. lia. }
  induction n as [|n IH]; intros s cur Hn Hcur.
  - destruct s; [by apply Hnil|simpl in Hn; lia].
  - destruct s as [|c s]; [by apply Hnil|].
    + simpl in Hn. cbn [split_sep_go].
      destruct (startswith (c :: s) sep) eqn:Hpre.
      * destruct (startswith_app _ _ Hpre) as [t Ht].
        destruct sep as [|p sep]; [done|].
        injection Ht as -> ->.
        rewrite split_sep_go_skip by (rewrite length_app; simpl; lia).
        replace (length (p :: sep) - 1)%nat with (length sep) by (simpl; lia).
        rewrite drop_app_length.
        change (p :: sep ++ t) with ((p :: sep) ++ t).
        apply cut_at_sep.
        -- intros i Hi. rewrite length_rev in Hi. by apply Hcur.
        -- apply (IH t []); [rewrite length_app in Hn; lia|].
           intros i Hi. simpl in Hi. lia.
      * replace (rev cur ++ c :: s) with (rev (c :: cur) ++ s)
          by (simpl; by rewrite <- app_assoc).
        apply IH; [lia|].
        intros i Hi. simpl in Hi.
        destruct (decide (i < length cur)%nat) as [Hlt|Hge].
        -- simpl. rewrite <- app_assoc. by apply Hcur.
        -- assert (i = (length cur + 0)%nat) as -> by lia.
           simpl. rewrite <- app_assoc. simpl.
           rewrite (occurs_at_shift sep cur (c :: s) 0).
           unfold occurs_at. simpl. intros Hocc.
           apply prefix_startswith in Hocc. congruence.
Qed.

Lemma split_sep_cut text sep : sep <> [] -> cut_at sep text (split_sep text sep).
Proof.
  intros Hsep. unfold split_sep.
  apply (split_sep_go_cut sep Hsep (length text) text []); [done|].
  intros i Hi. simpl in Hi. lia.
Qed.

Lemma occurs_at_cons (sep : str) c (s : str) i :
  occurs_at sep (c :: s) (S i) <-> occurs_at sep s i.
Proof. reflexivity. Qed.

Lemma split_sep_go_no_sep sep (s : str) : forall cur,
  (forall i, ~ occurs_at sep s i) ->
  split_sep_go sep 0 cur s = [rev cur ++ s].
Proof.
  induction s as [|c s IH]; intros cur Hno.
  - simpl. by rewrite app_nil_r.
  - cbn [split_sep_go].
    destruct (startswith (c :: s) sep) eqn:Hpre.
    + exfalso. apply (Hno 0%nat). unfold occurs_at. simpl.
      destruct (startswith_app _ _ Hpre) as [t ->]. by exists t.
    + rewrite IH.
      * simpl. by rewrite <- app_assoc.
      * intros i. rewrite <- (occurs_at_cons sep c s i). apply Hno.
Qed.

Lemma split_sep_go_first sep (piece : str) : forall cur rest,
  sep <> [] ->
  (forall i, (i < length piece)%nat -> ~ occurs_at sep (piece ++ sep ++ rest) i) ->
  split_sep_go sep 0 cur (piece ++ sep ++ rest) =
  (rev cur ++ piece) :: split_sep_go sep 0 [] rest.
Proof.
  induction piece as [|c piece IH]; intros cur rest Hsep Hno.
  - destruct sep as [|p sep]; [done|].
    simpl app. cbn [split_sep_go].
    pose proof (startswith_prefix (p :: sep) rest) as Hp.
    simpl app in Hp. rewrite Hp.
    rewrite split_sep_go_skip by (rewrite length_app; simpl; lia).
    replace (length (p :: sep) - 1)%nat with (length sep) by (simpl; lia).
    by rewrite drop_app_length, app_nil_r.
  - simpl app. cbn [split_sep_go].
    destruct (startswith (c :: piece ++ sep ++ rest) sep) eqn:Hpre.
    + exfalso. apply (Hno 0%nat); [simpl; lia|]. unfold occurs_at. simpl.
      destruct (startswith_app _ _ Hpre) as [t ->]. by exists t.
    + rewrite IH; [|done|].
      * simpl. by rewrite <- app_assoc.
      * intros i Hi.
        rewrite <- (occurs_at_cons sep c (piece ++ sep ++ rest) i).
        apply Hno. simpl. lia.
Qed.

(** A text has one cut only: the one the scan returns. *)
Lemma cut_at_unique sep text pieces :
  sep <> [] -> cut_at sep text pieces -> pieces = split_sep text sep.
Proof.
  intros Hsep Hcut. unfold split_sep.
  induction Hcut as [text Hno|piece rest pieces Hno Hcut IH].
  - by rewrite split_sep_go_no_sep.
  - rewrite split_sep_go_first by done. simpl. by rewrite IH.
Qed.

Lemma has_text_strip piece : truthy (strip piece) = has_text piece.
Proof.
  unfold has_text. destruct (strip piece) as [|c r] eqn:Hs; simpl.
  - apply strip_nil in Hs. unfold blank in Hs.
    symmetry. apply not_true_is_false. intros (c & Hin & Hc)%existsb_exists.
    rewrite forallb_forall in Hs. apply Hs in Hin. by rewrite Hin in Hc.
  - symmetry. apply not_false_is_true. intros Hno.
    assert (blank piece) as Hblank.
    { unfold blank. apply forallb_forall. intros x Hx.
      destruct (isspace x) eqn:Hsp; [done|].
      assert (existsb (fun c => negb (isspace c)) piece = true) as Hex
        by (apply existsb_exists; exists x; by rewrite Hsp).
      congruence. }
    apply strip_nil in Hblank. congruence.
Qed.

Lemma filter_truthy_has_text (l : list str) :
  List.filter (fun piece => truthy (strip piece)) l = List.filter has_text l.
Proof.
  induction l as [|x l IH]; [done|].
  simpl. by rewrite has_text_strip, IH.
Qed.

(** C8. [sentence_count] is the number of pieces of the text between
    its full stops that trimming does not empty, and [paragraph_count]
    the number of pieces between its double newlines that trimming does
    not empty. The pieces are the cut of the text at the separator, from
    left to right without overlap; the text has no other cut. *)
Theorem sentence_and_paragraph_counts now_ms (r : Resp.t) :
  exists sentence_pieces paragraph_pieces,
    cut_at [46%N] (Resp.text_content r) sentence_pieces /\
    (forall other, cut_at [46%N] (Resp.text_content r) other ->
       other = sentence_pieces) /\
    Stats.sentence_count (Analysis.basic_stats (analyze now_ms r)) =
      len (List.filter has_text sentence_pieces) /\
    cut_at [10%N; 10%N] (Resp.text_content r) paragraph_pieces /\
    (forall other, cut_at [10%N; 10%N] (Resp.text_content r) other ->
       other = paragraph_pieces) /\
    Stats.paragraph_count (Analysis.basic_stats (analyze now_ms r)) =
      len (List.filter has_text paragraph_pieces).
Proof.
  exists (split_sep (Resp.text_content r) [46%N]),
         (split_sep (Resp.text_content r) [10%N; 10%N]).
  split; [by apply split_sep_cut|].
  split; [intros other; by apply cut_at_unique|].
  split; [simpl; unfold sentences, len;
          by rewrite length_map, filter_truthy_has_text|].
  split; [by apply split_sep_cut|].
  split; [intros other; by apply cut_at_unique|].
  simpl. unfold paragraphs, len.
  by rewrite length_map, filter_truthy_has_text.
Qed.

(** ** The revised properties on the sample inputs *)

Lemma sentence_and_paragraph_counts_witness :
  Resp.text_content scenario_extraction =
    lit "Hello world." ++ nl2 ++ lit "Foo bar baz." /\
  Stats.sentence_count
    (Analysis.basic_stats (analyze 17000 scenario_extraction)) = 2 /\
  Stats.paragraph_count
    (Analysis.basic_stats (analyze 17000 scenario_extraction)) = 2 /\
  exists sentence_pieces paragraph_pieces,
    cut_at [46%N] (Resp.text_content scenario_extraction) sentence_pieces /\
    (forall other, cut_at [46%N] (Resp.text_content scenario_extraction) other ->
       other = sentence_pieces) /\
    Stats.sentence_count
      (Analysis.basic_stats (analyze 17000 scenario_extraction)) =
      len (List.filter has_text sentence_pieces) /\
    cut_at [10%N; 10%N] (Resp.text_content scenario_extraction) paragraph_pieces /\
    (forall other,
       cut_at [10%N; 10%N] (Resp.text_content scenario_extraction) other ->
       other = paragraph_pieces) /\
    Stats.paragraph_count
      (Analysis.basic_stats (analyze 17000 scenario_extraction)) =
      len (List.filter has_text paragraph_pieces).
Proof.
  do 3 (split; [reflexivity|]).
  apply (sentence_and_paragraph_counts 17000 scenario_extraction).
Defined.

Lemma pdf_suffix_any_case_witness :
  filename shouting_upload = lit "REPORT" ++ [46; 80; 68; 70]%N /\
  endswith (lower (filename shouting_upload)) (lit ".pdf") = true.
Proof.
  split; [reflexivity|].
  apply (proj2 (pdf_suffix_any_case (filename shouting_upload))).
  exists (lit "REPORT"), 80%N, 68%N, 70%N.
  split; [reflexivity|]. split; [by right|]. split; by right.
Defined.
